(** * A shallow embedding of the workload generator ([src/workload_generator.py])

    The harness sends [GET {BASE_URL}/sum?n=...] requests with a bounded
    retry loop ([send_request]), runs batches of concurrent requests and
    reduces them to a [WorkloadResult] ([run_workload]), and sweeps a list of
    batch sizes ([main]).

    Modelling choices.
    - The network is an environment: for every attempt index it says what the
      [requests.get] call did (raised a [RequestException], or returned a
      response with a status and a body) and how long the attempt took.
    - Wall-clock time is a counter of milliseconds threaded through the
      calls ([clock]); [time.sleep(1)] advances it by [SLEEP_MS] plus the
      overshoot the scheduler adds.
    - Floats of the source (latencies, rates, throughput) are exact rationals
      [Q]; latencies are measured in milliseconds.
    - The thread pool of [run_workload] is modelled by its observable effect:
      every submitted call runs [send_request] in its own environment and
      [as_completed] hands the results back in some completion order. *)

From Stdlib Require Import ZArith QArith Qround List String Permutation Lia.
Set Warnings "-register-all".
Import ListNotations.
Open Scope Z_scope.

(* ------------------------------------------------------------------ *)
(** ** Python values and exceptions *)

(** JSON documents as a server may send them. *)
Inductive json : Type :=
| JNull
| JBool (b : bool)
| JNum (q : Q)
| JStr (s : string)
| JArr (l : list json)
| JObj (l : list (string * json)).

(** The Python objects [response.json()] produces; JSON [null] becomes
    [None]. *)
Inductive pyobj : Type :=
| PyNone
| PyBool (b : bool)
| PyNum (q : Q)
| PyStr (s : string)
| PyList (l : list pyobj)
| PyDict (l : list (string * pyobj)).

Fixpoint py_of_json (j : json) : pyobj :=
  match j with
  | JNull => PyNone
  | JBool b => PyBool b
  | JNum q => PyNum q
  | JStr s => PyStr s
  | JArr l => PyList (map py_of_json l)
  | JObj l => PyDict (map (fun kv => (fst kv, py_of_json (snd kv))) l)
  end.

(** The subclasses of [requests.exceptions.RequestException] an attempt can
    raise; each carries the text [str(e)] renders.  [JSONDecodeError] is
    [requests.exceptions.JSONDecodeError], which [response.json()] raises on
    a malformed body. *)
Inductive request_exception : Type :=
| ConnectionError (msg : string)
| Timeout (msg : string)
| HTTPError (msg : string)
| JSONDecodeError (msg : string).

Definition str_exn (e : request_exception) : string :=
  match e with
  | ConnectionError m | Timeout m | HTTPError m | JSONDecodeError m => m
  end.

(** Exceptions that escape the functions of the module. *)
Inductive exn : Type :=
| ValueError
| AttributeError
| ZeroDivisionError.

Inductive result (A : Type) : Type :=
| Ok (a : A)
| Err (e : exn).
Arguments Ok {A} a.
Arguments Err {A} e.

Definition bind {A B} (m : result A) (f : A -> result B) : result B :=
  match m with Ok a => f a | Err e => Err e end.
Notation "'let*' x := m 'in' k" := (bind m (fun x => k))
  (at level 200, x name, m at level 100, k at level 200).

(* ------------------------------------------------------------------ *)
(** ** Configuration *)

Record Config : Type := {
  BASE_URL : string;
  DEFAULT_N_VALUE : Z;
  REQUEST_COUNTS : list Z;
  TIMEOUT : Z;
  MAX_RETRIES : Z
}.

Definition CONFIG : Config := {|
  BASE_URL := "IP_OF_THE_VM";
  DEFAULT_N_VALUE := 100000;
  REQUEST_COUNTS := [1; 10; 50; 100; 200; 300; 400; 500; 600; 700; 800; 900; 1000];
  TIMEOUT := 30;
  MAX_RETRIES := 3
|}.

(* ------------------------------------------------------------------ *)
(** ** Records *)

Record RequestResult : Type := {
  response_data : pyobj;
  execution_time : nat;          (* milliseconds *)
  success : bool;
  error : option string          (* [None] is the dataclass default *)
}.

Record WorkloadResult : Type := {
  total_time : Z;                (* milliseconds, [end_time - start_time] *)
  throughput : Q;
  avg_calculation_time : Q;
  request_count : Z;
  success_rate : Q;
  latencies : list nat
}.

(* ------------------------------------------------------------------ *)
(** ** The network and the clock *)

(** The body of a response, as [response.json()] sees it. *)
Inductive body : Type :=
| BodyJson (v : json)
| BodyMalformed (msg : string).

(** What [requests.get(...)] did on one attempt.  [err_msg] is the text
    [raise_for_status] renders for an error status. *)
Inductive get_result : Type :=
| Raised (e : request_exception)
| Responded (status : Z) (err_msg : string) (b : body).

Record attempt : Type := {
  a_result : get_result;
  a_dur : nat                    (* milliseconds the attempt took *)
}.

(** One caller's view of the world: the attempts of [requests.get] for a
    given [n] and [timeout], and how far each [time.sleep(1)] overshoots. *)
Record Env : Type := {
  http : Z -> Z -> nat -> attempt;
  oversleep : nat -> nat
}.

Inductive event : Type :=
| Get (attempt_no : nat)
| Sleep (attempt_no : nat).

Record State : Type := {
  clock : nat;
  trace : list event
}.

Definition SLEEP_MS : nat := 1000.

(** [response.raise_for_status()] followed by [response.json()]: the value
    of the [try] block, or the [RequestException] it raises. *)
Definition try_attempt (r : get_result) : pyobj + request_exception :=
  match r with
  | Raised e => inr e
  | Responded st msg b =>
      if (400 <=? st) && (st <? 600) then inr (HTTPError msg)
      else match b with
           | BodyJson v => inl (py_of_json v)
           | BodyMalformed m => inr (JSONDecodeError m)
           end
  end.

(** One iteration of [for attempt in range(max_retries)], and the ones after
    it; [fuel] is the number of iterations [range] has left.  Falling off
    the end of the loop returns [None]. *)
Fixpoint retry_loop (env : Env) (n timeout max_retries : Z) (start : nat)
    (fuel attempt_no : nat) (s : State) : option RequestResult * State :=
  match fuel with
  | O => (None, s)
  | S fuel' =>
      let a := http env n timeout attempt_no in
      let s1 := {| clock := clock s + a_dur a;
                   trace := trace s ++ [Get attempt_no] |} in
      match try_attempt (a_result a) with
      | inl data =>
          (Some {| response_data := data;
                   execution_time := clock s1 - start;
                   success := true;
                   error := None |}, s1)
      | inr e =>
          if Z.of_nat attempt_no =? max_retries - 1 then
            (Some {| response_data := PyNone;
                     execution_time := clock s1 - start;
                     success := false;
                     error := Some (str_exn e) |}, s1)
          else
            let s2 := {| clock := clock s1 + SLEEP_MS + oversleep env attempt_no;
                         trace := trace s1 ++ [Sleep attempt_no] |} in
            retry_loop env n timeout max_retries start fuel' (S attempt_no) s2
      end
  end.

Definition send_request (cfg : Config) (env : Env) (n timeout : Z) (s : State)
    : option RequestResult * State :=
  retry_loop env n timeout (MAX_RETRIES cfg) (clock s)
    (Z.to_nat (MAX_RETRIES cfg)) 0 s.


(* ------------------------------------------------------------------ *)
(** ** [run_workload] *)

(** The thread pool of one batch: the environment each submitted call sees,
    the order in which [as_completed] yields the futures (as indices into
    the list [futures]), and [end_time - start_time] in milliseconds. *)
Record Batch : Type := {
  call_env : nat -> Env;
  completion : list nat;
  wall_ms : Z
}.

(** The [RequestResult] (or [None]) future number [i] returns. *)
Definition call_outcome (cfg : Config) (b : Batch) (n : Z) (i : nat)
    : option RequestResult :=
  fst (send_request cfg (call_env b i) n (TIMEOUT cfg)
         {| clock := 0; trace := [] |}).

(** [ThreadPoolExecutor(max_workers=k)] rejects [k <= 0]. *)
Definition thread_pool_ok (max_workers : Z) : result unit :=
  if max_workers <=? 0 then Err ValueError else Ok tt.

(** [[r for r in results if r.success]]: reading [.success] on [None]
    raises [AttributeError]. *)
Fixpoint filter_success (results : list (option RequestResult))
    : result (list RequestResult) :=
  match results with
  | [] => Ok []
  | None :: _ => Err AttributeError
  | Some r :: rest =>
      let* tl := filter_success rest in
      Ok (if success r then r :: tl else tl)
  end.

Definition Q_of_nat (k : nat) : Q := inject_Z (Z.of_nat k).

(** [statistics.mean] of a non-empty list. *)
Definition mean (l : list nat) : Q :=
  (Q_of_nat (list_sum l) / Q_of_nat (List.length l))%Q.

Definition run_workload (cfg : Config) (b : Batch) (num_requests n : Z)
    : result WorkloadResult :=
  let* _ := thread_pool_ok num_requests in
  let results := map (call_outcome cfg b n) (completion b) in
  let total := wall_ms b in
  let* successful_results := filter_success results in
  let success_rate := (Q_of_nat (List.length successful_results) / inject_Z num_requests)%Q in
  let lats := map execution_time successful_results in
  Ok {| total_time := total;
        throughput := if 0 <? total
                      then (inject_Z num_requests / (inject_Z total / 1000))%Q
                      else 0%Q;
        avg_calculation_time := match lats with [] => 0%Q | _ => mean lats end;
        request_count := num_requests;
        success_rate := success_rate;
        latencies := lats |}.

(* ------------------------------------------------------------------ *)
(** ** [main] *)

(** The [for count in CONFIG['REQUEST_COUNTS']] loop of [main], with its
    [results] list threaded through: it returns the list built so far and
    the exception that stopped the loop, if any. *)
Fixpoint sweep (cfg : Config) (batches : nat -> Batch) (level_no : nat)
    (counts : list Z) (results : list WorkloadResult)
    : list WorkloadResult * option exn :=
  match counts with
  | [] => (results, None)
  | count :: rest =>
      match run_workload cfg (batches level_no) count (DEFAULT_N_VALUE cfg) with
      | Ok r => sweep cfg batches (S level_no) rest (results ++ [r])
      | Err e => (results, Some e)
      end
  end.

(** Line 107 of [create_and_display_plots]:
    [speedups = [results[0].total_time/r.total_time for r in results]],
    which raises [ZeroDivisionError] on a zero [total_time]. *)
Definition speedups (results : list WorkloadResult) : result (list Q) :=
  match results with
  | [] => Ok []
  | r0 :: _ =>
      fold_right (fun r acc =>
        let* tl := acc in
        if total_time r =? 0 then Err ZeroDivisionError
        else Ok ((inject_Z (total_time r0) / inject_Z (total_time r))%Q :: tl))
        (Ok []) results
  end.

Definition main (cfg : Config) (batches : nat -> Batch)
    : result (list WorkloadResult) :=
  match sweep cfg batches 0 (REQUEST_COUNTS cfg) [] with
  | (_, Some e) => Err e
  | (results, None) =>
      let* _ := speedups results in
      Ok results
  end.

(* ------------------------------------------------------------------ *)
(** ** Python's [round] on exact values (ties to even) *)

Definition py_round (q : Q) : Z :=
  let f := Qfloor q in
  match Qcompare (q - inject_Z f)%Q (1 # 2) with
  | Lt => f
  | Gt => f + 1
  | Eq => if Z.even f then f else f + 1
  end.

(* ------------------------------------------------------------------ *)
(** ** [create_and_display_plots] *)

(** The fifth panel: a boxplot of the levels that have latencies, or the
    text "No successful requests to display latency data". *)
Inductive latency_panel : Type :=
| Boxplot (labels : list Z) (data : list (list nat))
| NoLatencyText.

(** The data each panel is drawn from.  The [plt] calls themselves are
    not modelled, nor the errors they may raise (with matplotlib 3.11 and
    later, [plt.boxplot(..., labels=...)] raises [TypeError]); so
    [Ok p] means that line 107 did not raise, and [p] is what the code
    hands to each panel. *)
Record Plots : Type := {
  exec_series : list (Z * Z);
  throughput_series : list (Z * Q);
  speedup_series : list (Z * Q);
  success_series : list (Z * Q);
  latency_plot : latency_panel
}.

(** The truth value of [r.latencies] in [if r.latencies]. *)
Definition has_latencies (r : WorkloadResult) : bool :=
  match latencies r with [] => false | _ => true end.

Definition create_and_display_plots (results : list WorkloadResult) : result Plots :=
  let counts := map request_count results in
  let* sp := speedups results in
  let valid_results :=
    map (fun r => (request_count r, latencies r)) (filter has_latencies results) in
  Ok {| exec_series := combine counts (map total_time results);
        throughput_series := combine counts (map throughput results);
        speedup_series := combine counts sp;
        success_series := combine counts (map (fun r => (success_rate r * 100)%Q) results);
        latency_plot :=
          match valid_results with
          | [] => NoLatencyText
          | _ => Boxplot (map fst valid_results) (map snd valid_results)
          end |}.

(* ------------------------------------------------------------------ *)
(** ** The service of [src/workload.py]

    Lines 11-19 of the handler: [is_prime] and the sum of primes up to [n].
    As committed, the file writes some identifiers with a space inside
    ([sum primes], [is prime], [end time]); the model reads them as the
    joined names the other lines use ([is_prime], [end_time]).

    [int(num ** 0.5)] converts [num] to a float and calls the platform's
    floating-point [pow]: for large [num] the result may fall below the
    exact integer square root, and for [num] beyond the float range the
    conversion raises [OverflowError].  The model leaves this value a
    parameter [float_root]: [Some r] is [int(num ** 0.5) = r], [None] is
    the [OverflowError] (which the handler's [except ValueError] does not
    catch). *)

(** [range(lo, hi)]. *)
Definition py_range (lo hi : Z) : list Z :=
  map (fun k => lo + Z.of_nat k) (seq 0 (Z.to_nat (hi - lo))).

Section Service.
Variable float_root : Z -> option Z.

(** [None] when [is_prime(num)] raises. *)
Definition is_prime (num : Z) : option bool :=
  if num <? 2 then Some false
  else match float_root num with
       | None => None
       | Some r => Some (forallb (fun i => negb (num mod i =? 0)) (py_range 2 (r + 1)))
       end.

(** [sum(num for num in l if is_prime(num))]; [None] when some
    [is_prime(num)] raises. *)
Fixpoint sum_primes (l : list Z) : option Z :=
  match l with
  | [] => Some 0
  | num :: rest =>
      match is_prime num with
      | None => None
      | Some b =>
          match sum_primes rest with
          | None => None
          | Some s => Some ((if b then num else 0) + s)
          end
      end
  end.

(** [prime_sum = sum(num for num in range(2, n + 1) if is_prime(num))]. *)
Definition prime_sum (n : Z) : option Z := sum_primes (py_range 2 (n + 1)).

End Service.

(* ------------------------------------------------------------------ *)
(** ** Concrete environments *)

(** A target that refuses every connection; each attempt takes 5 ms. *)
Definition refused_env : Env := {|
  http := fun _ _ _ => {| a_result := Raised (ConnectionError "Connection refused");
                          a_dur := 5 |};
  oversleep := fun _ => 0%nat
|}.

(** A target that answers every attempt with status 200 and body [v]. *)
Definition answering_env (v : json) (dur : nat) : Env := {|
  http := fun _ _ _ => {| a_result := Responded 200 "" (BodyJson v); a_dur := dur |};
  oversleep := fun _ => 0%nat
|}.

(** The body the service sends for [n = 10]. *)
Definition sum_body : json :=
  JObj [("n"%string, JNum 10); ("sum_of_primes"%string, JNum 17); ("time"%string, JNum (1 # 1000))].

(** A target that times out once, then answers. *)
Definition flaky_env : Env := {|
  http := fun _ _ k =>
    match k with
    | O => {| a_result := Raised (Timeout "Read timed out."); a_dur := 3000 |}
    | _ => {| a_result := Responded 200 "" (BodyJson sum_body); a_dur := 12 |}
    end;
  oversleep := fun _ => 2%nat
|}.

(** Three calls: the first refused, the other two answered after one
    retry; they complete in the order 2, 0, 1. *)
Definition mixed_batch : Batch := {|
  call_env := fun i => match i with O => refused_env | _ => flaky_env end;
  completion := [2; 0; 1]%nat;
  wall_ms := 4100
|}.

Definition s0 : State := {| clock := 0; trace := [] |}.

(** A batch of [k] calls, completing in launch order. *)
Definition batch_of (e : Env) (k : nat) (wall : Z) : Batch := {|
  call_env := fun _ => e;
  completion := seq 0 k;
  wall_ms := wall
|}.

Definition with_counts (cfg : Config) (counts : list Z) : Config := {|
  BASE_URL := BASE_URL cfg;
  DEFAULT_N_VALUE := DEFAULT_N_VALUE cfg;
  REQUEST_COUNTS := counts;
  TIMEOUT := TIMEOUT cfg;
  MAX_RETRIES := MAX_RETRIES cfg
|}.

Definition with_retries (cfg : Config) (m : Z) : Config := {|
  BASE_URL := BASE_URL cfg;
  DEFAULT_N_VALUE := DEFAULT_N_VALUE cfg;
  REQUEST_COUNTS := REQUEST_COUNTS cfg;
  TIMEOUT := TIMEOUT cfg;
  MAX_RETRIES := m
|}.

(** The service's answer to a non-integer [n]: status [700] with body
    [{"error": "Invalid input"}]. *)
Definition invalid_input_env : Env := {|
  http := fun _ _ _ =>
    {| a_result := Responded 700 "" (BodyJson (JObj [("error"%string, JStr "Invalid input")]));
       a_dur := 4 |};
  oversleep := fun _ => 0%nat
|}.

(** [mixed_batch] with its futures completing in launch order. *)
Definition mixed_batch_in_order : Batch := {|
  call_env := call_env mixed_batch;
  completion := [0; 1; 2]%nat;
  wall_ms := wall_ms mixed_batch
|}.

(** Level [0] runs one refused call, the later levels run [mixed_batch]. *)
Definition level_batches (k : nat) : Batch :=
  match k with
  | O => batch_of refused_env 1 2010
  | S _ => mixed_batch
  end.

(** The summaries of the levels [1] and [3] run on [level_batches]. *)
Definition two_levels : list WorkloadResult :=
  fst (sweep CONFIG level_batches 0 [1; 3] []).

(** [int(num ** 0.5)] when the float computation is exact to the unit. *)
Definition exact_root (num : Z) : option Z := Some (Z.sqrt num).

(** A float root that comes out one below the exact one. *)
Definition low_root (num : Z) : option Z := Some (Z.sqrt num - 1).

(** The [RequestResult] inside an [Optional[RequestResult]]. *)
Definition unwrap_result (o : option RequestResult) : RequestResult :=
  match o with
  | Some r => r
  | None => {| response_data := PyNone; execution_time := 0; success := false; error := None |}
  end.

(** Wall time of the [k] attempts [a], ..., [a + k] with the sleeps between
    them. *)
Fixpoint retry_span (env : Env) (n timeout : Z) (a k : nat) : nat :=
  match k with
  | O => a_dur (http env n timeout a)
  | S k' => a_dur (http env n timeout a) + SLEEP_MS + oversleep env a
            + retry_span env n timeout (S a) k'
  end.

(** The events of the attempts [a], ..., [a + j] with a sleep between
    consecutive ones. *)
Fixpoint attempt_trace (a j : nat) : list event :=
  match j with
  | O => [Get a]
  | S j' => Get a :: Sleep a :: attempt_trace (S a) j'
  end.

Definition attempt_fails (env : Env) (n timeout : Z) (k : nat) : Prop :=
  exists e, try_attempt (a_result (http env n timeout k)) = inr e.

(* ------------------------------------------------------------------ *)
(** ** The retry loop *)

Section RetryLoop.
Variables (env : Env) (n timeout max_retries : Z) (start : nat).

Lemma retry_loop_no_fuel a s :
  retry_loop env n timeout max_retries start 0 a s = (None, s).
Proof. reflexivity. Qed.

Lemma retry_loop_returns fuel :
  forall a s, (1 <= fuel)%nat ->
  Z.of_nat a + Z.of_nat fuel = max_retries ->
  exists r s', retry_loop env n timeout max_retries start fuel a s = (Some r, s').
Proof.
  induction fuel as [|fuel IH]; intros a s Hf Hsum; [lia|].
  simpl. destruct (try_attempt _) as [data|e]; [eauto|].
  destruct (Z.of_nat a =? max_retries - 1) eqn:Hlast; [eauto|].
  apply Z.eqb_neq in Hlast.
  apply IH; lia.
Qed.

(** Every outcome the loop returns comes from one attempt: a success
    carries that attempt's decoded body and no error, a failure carries
    [None] as data and the text of that attempt's exception. *)
Lemma retry_loop_shape fuel :
  forall a s r s',
  retry_loop env n timeout max_retries start fuel a s = (Some r, s') ->
  exists k, (a <= k < a + fuel)%nat /\
  ((success r = true /\ error r = None /\
    try_attempt (a_result (http env n timeout k)) = inl (response_data r)) \/
   (success r = false /\ response_data r = PyNone /\
    exists e, try_attempt (a_result (http env n timeout k)) = inr e /\
              error r = Some (str_exn e))).
Proof.
  induction fuel as [|fuel IH]; intros a s r s' Hrun; [discriminate|].
  simpl in Hrun. destruct (try_attempt _) as [data|e] eqn:Ht.
  - injection Hrun as <- _. exists a. split; [lia|]. left. simpl. auto.
  - destruct (Z.of_nat a =? max_retries - 1).
    + injection Hrun as <- _. exists a. split; [lia|]. right. simpl. eauto.
    + destruct (IH _ _ _ _ Hrun) as [k [Hk Hr]]. exists k. split; [lia|exact Hr].
Qed.

Lemma retry_loop_success_at j :
  forall a fuel s data,
  Z.of_nat a + Z.of_nat fuel = max_retries ->
  (j < fuel)%nat ->
  (start <= clock s)%nat ->
  (forall i, (i < j)%nat -> attempt_fails env n timeout (a + i)) ->
  try_attempt (a_result (http env n timeout (a + j))) = inl data ->
  exists s',
    retry_loop env n timeout max_retries start fuel a s =
      (Some {| response_data := data;
               execution_time := clock s + retry_span env n timeout a j - start;
               success := true; error := None |}, s') /\
    clock s' = (clock s + retry_span env n timeout a j)%nat.
Proof.
  induction j as [|j IH]; intros a fuel s data Hsum Hj Hstart Hfail Hok.
  - destruct fuel as [|fuel]; [lia|].
    rewrite Nat.add_0_r in Hok. simpl. rewrite Hok. eexists. split; reflexivity.
  - destruct fuel as [|fuel]; [lia|].
    destruct (Hfail 0%nat ltac:(lia)) as [e He]. rewrite Nat.add_0_r in He.
    simpl. rewrite He.
    assert (Hne : (Z.of_nat a =? max_retries - 1) = false) by (apply Z.eqb_neq; lia).
    rewrite Hne.
    set (s2 := {| clock := clock s + a_dur (http env n timeout a) + SLEEP_MS
                           + oversleep env a;
                  trace := (trace s ++ [Get a]) ++ [Sleep a] |}).
    assert (Hfail' : forall i, (i < j)%nat -> attempt_fails env n timeout (S a + i)).
    { intros i Hi. replace (S a + i)%nat with (a + S i)%nat by lia. apply Hfail. lia. }
    assert (Hok' : try_attempt (a_result (http env n timeout (S a + j))) = inl data).
    { replace (S a + j)%nat with (a + S j)%nat by lia. exact Hok. }
    destruct (IH (S a) fuel s2 data ltac:(lia) ltac:(lia) ltac:(simpl; lia) Hfail' Hok')
      as [s' [Hrun Hclk]].
    exists s'. simpl in Hclk |- *. fold s2. rewrite Hrun. split.
    + do 3 f_equal. simpl. lia.
    + lia.
Qed.

End RetryLoop.

Lemma retry_span_sum env n timeout k :
  forall a,
  retry_span env n timeout a k =
    (list_sum (map (fun j => a_dur (http env n timeout j)) (seq a (S k)))
     + list_sum (map (fun j => SLEEP_MS + oversleep env j) (seq a k)))%nat.
Proof.
  induction k as [|k IH]; intros a.
  - simpl. lia.
  - change (seq a (S (S k))) with (a :: seq (S a) (S k)).
    change (seq a (S k)) with (a :: seq (S a) k).
    cbn [retry_span map list_sum fold_right]. rewrite IH.
    unfold list_sum. cbn [map fold_right]. lia.
Qed.

Lemma try_attempt_inl r data :
  try_attempt r = inl data ->
  exists st msg v, r = Responded st msg (BodyJson v) /\
                   ~ (400 <= st < 600) /\ data = py_of_json v.
Proof.
  destruct r as [e|st msg [v|m]]; simpl; try discriminate.
  - destruct ((400 <=? st) && (st <? 600)) eqn:H; try discriminate.
    intros Hd; injection Hd as <-. exists st, msg, v. repeat split.
    apply andb_false_iff in H. lia.
  - destruct ((400 <=? st) && (st <? 600)); discriminate.
Qed.

Lemma py_of_json_none v : py_of_json v = PyNone <-> v = JNull.
Proof. destruct v; simpl; split; congruence. Qed.

Lemma send_request_returns cfg env n timeout s :
  1 <= MAX_RETRIES cfg ->
  exists r s', send_request cfg env n timeout s = (Some r, s').
Proof.
  intros Hm. unfold send_request.
  apply retry_loop_returns; lia.
Qed.

(* ------------------------------------------------------------------ *)
(** ** Claims about [send_request] *)



(** C9: [send_request] falls off the end of its loop, returning [None],
    exactly when [MAX_RETRIES <= 0]; for [MAX_RETRIES >= 1] it returns a
    [RequestResult]. *)
Theorem send_request_none_iff (cfg : Config) (env : Env) (n timeout : Z) (s : State) :
  fst (send_request cfg env n timeout s) = None <-> MAX_RETRIES cfg <= 0.
Proof.
  unfold send_request.
  destruct (Z_le_gt_dec (MAX_RETRIES cfg) 0) as [Hle|Hgt].
  - replace (Z.to_nat (MAX_RETRIES cfg)) with 0%nat by lia.
    rewrite retry_loop_no_fuel. simpl. tauto.
  - fold (send_request cfg env n timeout s).
    destruct (send_request_returns cfg env n timeout s) as [r [s' Hrun]]; [lia|].
    rewrite Hrun. simpl. split; [discriminate | lia].
Qed.

(** C3: against a target whose three attempts all fail, [send_request]
    with [CONFIG] ([MAX_RETRIES = 3]) makes exactly three attempts with one
    [time.sleep(1)] between consecutive ones, returns a failed result with
    the text of the last attempt's exception, and its [execution_time]
    (the whole span on the clock) is at least the two sleeps. *)
Theorem send_request_retry_exhaustion (env : Env) (n timeout : Z) (s : State) :
  (forall k, (k < 3)%nat -> attempt_fails env n timeout k) ->
  exists e,
    try_attempt (a_result (http env n timeout 2)) = inr e /\
    let elapsed := (a_dur (http env n timeout 0) + a_dur (http env n timeout 1)
                    + a_dur (http env n timeout 2) + 2 * SLEEP_MS
                    + oversleep env 0 + oversleep env 1)%nat in
    send_request CONFIG env n timeout s =
      (Some {| response_data := PyNone; execution_time := elapsed;
               success := false; error := Some (str_exn e) |},
       {| clock := clock s + elapsed;
          trace := trace s ++ [Get 0; Sleep 0; Get 1; Sleep 1; Get 2] |}) /\
    (2 * SLEEP_MS <= elapsed)%nat.
Proof.
  intros Hfail.
  destruct (Hfail 0%nat ltac:(lia)) as [e0 H0].
  destruct (Hfail 1%nat ltac:(lia)) as [e1 H1].
  destruct (Hfail 2%nat ltac:(lia)) as [e2 H2].
  exists e2. split; [exact H2|]. cbv zeta.
  split; [|lia].
  unfold send_request. simpl.
  rewrite H0. simpl. rewrite H1. simpl. rewrite H2. simpl.
  repeat rewrite <- app_assoc. simpl.
  f_equal; [f_equal; f_equal | f_equal]; unfold SLEEP_MS; lia.
Qed.

(** C4: when attempt [k] (counting from 1, [k <= MAX_RETRIES]) is the
    first to succeed, the result's [execution_time] is the time of all [k]
    attempts plus the [k - 1] sleeps between them: the span of the clock
    from before the first attempt to the end of the winning one. *)
Theorem send_request_elapsed_spans_all_attempts
    (cfg : Config) (env : Env) (n timeout : Z) (s : State) (k : nat) (data : pyobj) :
  (1 <= k)%nat -> Z.of_nat k <= MAX_RETRIES cfg ->
  (forall j, (j < k - 1)%nat -> attempt_fails env n timeout j) ->
  try_attempt (a_result (http env n timeout (k - 1))) = inl data ->
  let elapsed :=
    (list_sum (map (fun j => a_dur (http env n timeout j)) (seq 0 k))
     + list_sum (map (fun j => SLEEP_MS + oversleep env j) (seq 0 (k - 1))))%nat in
  exists s',
    send_request cfg env n timeout s =
      (Some {| response_data := data; execution_time := elapsed;
               success := true; error := None |}, s') /\
    clock s' = (clock s + elapsed)%nat.
Proof.
  intros Hk Hmax Hfail Hok elapsed.
  unfold send_request.
  destruct (retry_loop_success_at env n timeout (MAX_RETRIES cfg) (clock s) (k - 1)
              0 (Z.to_nat (MAX_RETRIES cfg)) s data)
    as [s' [Hrun Hclk]]; [lia | lia | lia | exact Hfail | exact Hok |].
  assert (Hspan : retry_span env n timeout 0 (k - 1) = elapsed).
  { rewrite retry_span_sum. replace (S (k - 1)) with k by lia. reflexivity. }
  rewrite Hspan in Hrun, Hclk.
  exists s'. split; [|exact Hclk].
  rewrite Hrun. do 3 f_equal. lia.
Qed.

(** A success response whose body is the JSON literal [null] gives a
    successful result whose [response_data] is [None]. *)
Lemma send_request_null_body_success :
  send_request CONFIG (answering_env JNull 7) 100000 30 s0 =
    (Some {| response_data := PyNone; execution_time := 7;
             success := true; error := None |},
     {| clock := 7; trace := [Get 0] |}).
Proof. reflexivity. Qed.

(** C8 (as the code has it): a failed result has no data and a reason; a
    successful result has no reason and holds the decoded body of a
    non-error response, which is [None] exactly when that body is JSON
    [null]. *)
Theorem send_request_outcome_exclusive
    (cfg : Config) (env : Env) (n timeout : Z) (s s' : State) (r : RequestResult) :
  send_request cfg env n timeout s = (Some r, s') ->
  (success r = true ->
     error r = None /\
     exists k st msg v,
       a_result (http env n timeout k) = Responded st msg (BodyJson v) /\
       ~ (400 <= st < 600) /\ response_data r = py_of_json v /\
       (response_data r = PyNone <-> v = JNull)) /\
  (success r = false -> response_data r = PyNone /\ exists msg, error r = Some msg).
Proof.
  unfold send_request. intros Hrun.
  destruct (retry_loop_shape _ _ _ _ _ _ _ _ _ _ Hrun)
    as [k [_ [[Hs [He Ht]] | [Hs [Hd [e [_ He]]]]]]].
  - split; [|congruence]. intros _. split; [exact He|].
    destruct (try_attempt_inl _ _ Ht) as [st [msg [v [Hr [Hst Hv]]]]].
    exists k, st, msg, v. repeat split; auto; rewrite Hv; apply py_of_json_none.
  - split; [congruence|]. intros _. eauto.
Qed.

(* ------------------------------------------------------------------ *)
(** ** Batches and sweeps *)

Lemma filter_success_ok l :
  (forall o, In o l -> o <> None) ->
  exists rs, l = map Some rs /\ filter_success l = Ok (filter success rs).
Proof.
  induction l as [|o l IH]; intros H.
  - exists []. auto.
  - destruct o as [r|]; [|exfalso; apply (H None); simpl; auto].
    destruct IH as [rs [-> Hf]]; [intros o' Ho'; apply H; simpl; auto|].
    exists (r :: rs). simpl. rewrite Hf. simpl. split; [reflexivity|].
    destruct (success r); reflexivity.
Qed.

Lemma filter_success_inv l l' :
  filter_success l = Ok l' -> exists rs, l = map Some rs /\ l' = filter success rs.
Proof.
  revert l'; induction l as [|o l IH]; intros l' H.
  - simpl in H. injection H as <-. exists []. auto.
  - destruct o as [r|]; simpl in H; [|discriminate].
    destruct (filter_success l) as [tl|e]; simpl in H; [|discriminate].
    injection H as <-. destruct (IH tl eq_refl) as [rs [-> ->]].
    exists (r :: rs). simpl. split; [reflexivity|]. destruct (success r); reflexivity.
Qed.


(** The summary [run_workload] builds from the successful results. *)
Definition summary_of (b : Batch) (num : Z) (rs : list RequestResult) : WorkloadResult :=
  let lats := map execution_time (filter success rs) in
  {| total_time := wall_ms b;
     throughput := if 0 <? wall_ms b
                   then (inject_Z num / (inject_Z (wall_ms b) / 1000))%Q else 0%Q;
     avg_calculation_time := match lats with [] => 0%Q | _ => mean lats end;
     request_count := num;
     success_rate := (Q_of_nat (List.length (filter success rs)) / inject_Z num)%Q;
     latencies := lats |}.

Lemma run_workload_ok cfg b num n :
  1 <= MAX_RETRIES cfg -> 1 <= num ->
  exists rs, map (call_outcome cfg b n) (completion b) = map Some rs /\
             run_workload cfg b num n = Ok (summary_of b num rs).
Proof.
  intros Hm Hn.
  destruct (filter_success_ok (map (call_outcome cfg b n) (completion b)))
    as [rs [Hrs Hf]].
  { intros o Ho. apply in_map_iff in Ho. destruct Ho as [i [<- _]].
    unfold call_outcome.
    destruct (send_request_returns cfg (call_env b i) n (TIMEOUT cfg)
                {| clock := 0; trace := [] |} Hm) as [r [s' ->]].
    discriminate. }
  exists rs. split; [exact Hrs|].
  unfold run_workload, thread_pool_ok.
  replace (num <=? 0) with false by (symmetry; apply Z.leb_gt; lia).
  simpl. rewrite Hf. reflexivity.
Qed.

Lemma run_workload_inv cfg b num n r :
  run_workload cfg b num n = Ok r ->
  1 <= num /\
  exists rs, map (call_outcome cfg b n) (completion b) = map Some rs /\
             r = summary_of b num rs.
Proof.
  unfold run_workload, thread_pool_ok.
  destruct (num <=? 0) eqn:Hn; simpl; [discriminate|].
  destruct (filter_success _) as [l'|e] eqn:Hf; simpl; [|discriminate].
  intros Hr. injection Hr as <-. apply Z.leb_gt in Hn. split; [lia|].
  destruct (filter_success_inv _ _ Hf) as [rs [Hrs ->]].
  exists rs. split; [exact Hrs | reflexivity].
Qed.

Lemma run_workload_pool_rejects cfg b num n :
  num <= 0 -> run_workload cfg b num n = Err ValueError.
Proof.
  intros Hn. unfold run_workload, thread_pool_ok.
  replace (num <=? 0) with true by (symmetry; apply Z.leb_le; exact Hn).
  reflexivity.
Qed.



Lemma py_round_comp x y : x == y -> py_round x = py_round y.
Proof.
  intros H. unfold py_round.
  assert (Hf : Qfloor x = Qfloor y) by (apply Qfloor_comp; exact H).
  rewrite Hf.
  assert (Hd : (x - inject_Z (Qfloor y)) == (y - inject_Z (Qfloor y))) by (rewrite H; reflexivity).
  rewrite (Qcompare_comp _ _ Hd (1 # 2) (1 # 2) (Qeq_refl _)). reflexivity.
Qed.

Lemma py_round_Z z : py_round (inject_Z z) = z.
Proof.
  unfold py_round. rewrite Qfloor_Z.
  assert (Hd : (inject_Z z - inject_Z z) == 0) by ring.
  rewrite (Qcompare_comp _ _ Hd (1 # 2) (1 # 2) (Qeq_refl _)). reflexivity.
Qed.

(* ------------------------------------------------------------------ *)
(** ** Claims about [run_workload] and [main] *)

(** A level at which no call succeeds reports [avg_calculation_time = 0],
    the same number a level whose successful calls took no time reports:
    there is no separate "no data" value. *)
Lemma run_workload_no_success_avg_zero :
  match run_workload CONFIG (batch_of refused_env 5 2100) 5 100000 with
  | Ok r => avg_calculation_time r = 0%Q /\ latencies r = []
  | Err _ => False
  end /\
  match run_workload CONFIG (batch_of (answering_env (JNum 1) 0) 5 10) 5 100000 with
  | Ok r => (avg_calculation_time r == 0)%Q /\ latencies r = [0; 0; 0; 0; 0]%nat
  | Err _ => False
  end.
Proof. vm_compute. repeat split; reflexivity. Qed.

(** C1 (as the code has it): [avg_calculation_time] is the number [0] when
    no call of the level succeeded, and the mean of the latencies
    otherwise. *)
Theorem run_workload_avg_calculation_time
    (cfg : Config) (b : Batch) (num n : Z) (r : WorkloadResult) :
  run_workload cfg b num n = Ok r ->
  (latencies r = [] -> avg_calculation_time r = 0%Q) /\
  (latencies r <> [] -> avg_calculation_time r = mean (latencies r)).
Proof.
  intros Hrun. destruct (run_workload_inv _ _ _ _ _ Hrun) as [_ [rs [_ ->]]].
  unfold summary_of. simpl.
  destruct (map execution_time (filter success rs)); simpl; split; congruence.
Qed.


(** C6: every summary satisfies [0 <= success_rate <= 1] and
    [len(latencies) == round(success_rate * request_count)], and its
    latencies are the [execution_time]s of the successful results, in the
    order [as_completed] yields them. *)
Theorem run_workload_summary_invariant
    (cfg : Config) (b : Batch) (num n : Z) (r : WorkloadResult) :
  Permutation (completion b) (seq 0 (Z.to_nat num)) ->
  run_workload cfg b num n = Ok r ->
  (0 <= success_rate r <= 1)%Q /\
  Z.of_nat (List.length (latencies r))
    = py_round (success_rate r * inject_Z (request_count r)) /\
  exists rs, map (call_outcome cfg b n) (completion b) = map Some rs /\
             latencies r = map execution_time (filter success rs).
Proof.
  intros Hperm Hrun.
  destruct (run_workload_inv _ _ _ _ _ Hrun) as [Hn [rs [Hrs ->]]].
  assert (Hlen : (List.length (filter success rs) <= Z.to_nat num)%nat).
  { rewrite <- (length_seq (Z.to_nat num) 0), <- (Permutation_length Hperm).
    rewrite <- (length_map (call_outcome cfg b n)), Hrs, length_map.
    apply filter_length_le. }
  assert (Hpos : (0 < inject_Z num)%Q)
    by (change 0%Q with (inject_Z 0); rewrite <- Zlt_Qlt; lia).
  unfold summary_of; cbn [success_rate latencies request_count].
  set (k := List.length (filter success rs)) in *.
  split; [split|split].
  - apply Qle_shift_div_l; [exact Hpos|].
    rewrite Qmult_0_l. unfold Q_of_nat. change 0%Q with (inject_Z 0).
    rewrite <- Zle_Qle. lia.
  - apply Qle_shift_div_r; [exact Hpos|].
    rewrite Qmult_1_l. unfold Q_of_nat. rewrite <- Zle_Qle. lia.
  - rewrite length_map.
    assert (Hq : (Q_of_nat k / inject_Z num * inject_Z num == inject_Z (Z.of_nat k))%Q).
    { unfold Q_of_nat. field. intros H0. apply Qlt_not_eq in Hpos. apply Hpos.
      symmetry. exact H0. }
    rewrite (py_round_comp _ _ Hq), py_round_Z. reflexivity.
  - exists rs. split; [exact Hrs | reflexivity].
Qed.

(** C10: [run_workload] with a batch size [<= 0] raises [ValueError]
    (from [ThreadPoolExecutor]) instead of returning a summary. *)
Theorem run_workload_nonpositive_raises (cfg : Config) (b : Batch) (num n : Z) :
  num <= 0 -> run_workload cfg b num n = Err ValueError.
Proof. apply run_workload_pool_rejects. Qed.




(* ------------------------------------------------------------------ *)
(** ** The claims at concrete inputs *)


Lemma send_request_none_iff_witness :
  MAX_RETRIES (with_retries CONFIG 0) <= 0 /\
  fst (send_request (with_retries CONFIG 0) refused_env 100000 30 s0) = None.
Proof.
  split; [simpl; lia|].
  apply (send_request_none_iff (with_retries CONFIG 0) refused_env 100000 30 s0).
  simpl. lia.
Defined.

Lemma send_request_retry_exhaustion_witness :
  (forall k, (k < 3)%nat -> attempt_fails refused_env 100000 30 k) /\
  exists e,
    try_attempt (a_result (http refused_env 100000 30 2)) = inr e /\
    send_request CONFIG refused_env 100000 30 s0 =
      (Some {| response_data := PyNone; execution_time := 2015;
               success := false; error := Some (str_exn e) |},
       {| clock := 2015; trace := [Get 0; Sleep 0; Get 1; Sleep 1; Get 2] |}) /\
    (2 * SLEEP_MS <= 2015)%nat.
Proof.
  assert (Hf : forall k, (k < 3)%nat -> attempt_fails refused_env 100000 30 k).
  { intros k _. exists (ConnectionError "Connection refused"). reflexivity. }
  split; [exact Hf|].
  exact (send_request_retry_exhaustion refused_env 100000 30 s0 Hf).
Defined.

Lemma send_request_elapsed_spans_all_attempts_witness :
  exists s',
    send_request CONFIG flaky_env 10 30 s0 =
      (Some {| response_data := py_of_json sum_body; execution_time := 4014;
               success := true; error := None |}, s').
Proof.
  assert (Hf : forall j, (j < 2 - 1)%nat -> attempt_fails flaky_env 10 30 j).
  { intros j Hj. replace j with 0%nat by lia.
    exists (Timeout "Read timed out."). reflexivity. }
  destruct (send_request_elapsed_spans_all_attempts CONFIG flaky_env 10 30 s0 2
              (py_of_json sum_body) ltac:(lia) ltac:(simpl; lia) Hf eq_refl)
    as [s' [Hs _]].
  exists s'. exact Hs.
Defined.

Lemma send_request_outcome_exclusive_witness :
  send_request CONFIG (answering_env (JNum 1) 7) 100000 30 s0 =
    (Some {| response_data := PyNum 1; execution_time := 7;
             success := true; error := None |},
     {| clock := 7; trace := [Get 0] |}) /\
  error {| response_data := PyNum 1; execution_time := 7;
           success := true; error := None |} = None.
Proof.
  split; [reflexivity|].
  exact (proj1 (proj1 (send_request_outcome_exclusive CONFIG (answering_env (JNum 1) 7)
                         100000 30 s0 _ _ eq_refl) eq_refl)).
Defined.

Lemma run_workload_avg_calculation_time_witness :
  exists r, run_workload CONFIG (batch_of refused_env 5 2100) 5 100000 = Ok r /\
    (latencies r = [] -> avg_calculation_time r = 0%Q).
Proof.
  eexists. split; [reflexivity|].
  exact (proj1 (run_workload_avg_calculation_time CONFIG (batch_of refused_env 5 2100)
                  5 100000 _ eq_refl)).
Defined.


Lemma run_workload_summary_invariant_witness :
  exists r, run_workload CONFIG mixed_batch 3 10 = Ok r /\
    (0 <= success_rate r <= 1)%Q /\
    Z.of_nat (List.length (latencies r))
      = py_round (success_rate r * inject_Z (request_count r)).
Proof.
  eexists. split; [reflexivity|].
  destruct (run_workload_summary_invariant CONFIG mixed_batch 3 10 _
              (Permutation_cons_append [0; 1]%nat 2%nat) eq_refl) as [H1 [H2 _]].
  split; [exact H1 | exact H2].
Defined.

Lemma run_workload_nonpositive_raises_witness :
  0 <= 0 /\ run_workload CONFIG (batch_of refused_env 0 0) 0 100000 = Err ValueError.
Proof.
  split; [lia|].
  apply run_workload_nonpositive_raises. lia.
Defined.


(* ------------------------------------------------------------------ *)
(** ** More of [send_request] and [run_workload] *)

Lemma retry_loop_run env n timeout m start fuel :
  forall a s r s',
  Z.of_nat a + Z.of_nat fuel = m -> (start <= clock s)%nat ->
  retry_loop env n timeout m start fuel a s = (Some r, s') ->
  exists j, (j < fuel)%nat /\
    trace s' = trace s ++ attempt_trace a j /\
    (start <= clock s')%nat /\ execution_time r = (clock s' - start)%nat /\
    (forall i, (i < j)%nat -> attempt_fails env n timeout (a + i)) /\
    (success r = true <-> ~ attempt_fails env n timeout (a + j)) /\
    (success r = false -> Z.of_nat (a + j) = m - 1).
Proof.
  induction fuel as [|fuel IH]; intros a s r s' Hsum Hstart Hrun; [discriminate|].
  simpl in Hrun. destruct (try_attempt _) as [data|e] eqn:Ht.
  - injection Hrun as <- <-. exists 0%nat. rewrite Nat.add_0_r. simpl.
    repeat split; try lia; try discriminate.
    all: try (intros _ [e He]; congruence).
  - destruct (Z.of_nat a =? m - 1) eqn:Hlast.
    + injection Hrun as <- <-. exists 0%nat. rewrite Nat.add_0_r. simpl.
      apply Z.eqb_eq in Hlast.
      repeat split; try lia; try discriminate.
      all: try (intros Hn; exfalso; apply Hn; exists e; exact Ht).
    + apply Z.eqb_neq in Hlast.
      apply IH in Hrun; [|lia|simpl; lia].
      destruct Hrun as [j [Hj [Htr [Hst [Hex [Hf [Hs Hl]]]]]]].
      exists (S j). simpl in Htr. rewrite Htr, <- !app_assoc.
      replace (a + S j)%nat with (S a + j)%nat by lia.
      repeat split; try lia; try assumption; try apply Hs.
      all: try (intros Hfl; specialize (Hl Hfl); lia).
      intros i Hi. destruct i as [|i].
      * rewrite Nat.add_0_r. exists e. exact Ht.
      * replace (a + S i)%nat with (S a + i)%nat by lia. apply Hf. lia.
Qed.

(** [send_request] attempts [0], ..., [j] in order with one sleep between
    consecutive attempts and none after the last, retries only after a
    failed attempt, stops at the first success, and gives up only on
    attempt [MAX_RETRIES - 1]; its [execution_time] is the whole advance of
    the clock during the call. *)
Theorem send_request_attempt_trace
    (cfg : Config) (env : Env) (n timeout : Z) (s s' : State) (r : RequestResult) :
  send_request cfg env n timeout s = (Some r, s') ->
  exists j, Z.of_nat j < MAX_RETRIES cfg /\
    trace s' = trace s ++ attempt_trace 0 j /\
    clock s' = (clock s + execution_time r)%nat /\
    (forall i, (i < j)%nat -> attempt_fails env n timeout i) /\
    (success r = true <-> ~ attempt_fails env n timeout j) /\
    (success r = false -> Z.of_nat j = MAX_RETRIES cfg - 1).
Proof.
  unfold send_request. intros Hrun.
  assert (Hm : 1 <= MAX_RETRIES cfg).
  { destruct (Z_le_gt_dec (MAX_RETRIES cfg) 0) as [Hle|]; [|lia].
    replace (Z.to_nat (MAX_RETRIES cfg)) with 0%nat in Hrun by lia. discriminate. }
  destruct (retry_loop_run env n timeout (MAX_RETRIES cfg) (clock s)
              (Z.to_nat (MAX_RETRIES cfg)) 0 s r s' ltac:(lia) ltac:(lia) Hrun)
    as [j [Hj [Htr [Hst [Hex [Hf [Hs Hl]]]]]]].
  exists j. repeat split; try assumption; try lia.
  - apply Hs.
  - apply Hs.
Qed.

(** A response whose status is outside [400..599] is a success after one
    attempt, with its body as the data; this includes the status [700]
    with body [{"error": "Invalid input"}] that [src/workload.py] sends for
    a non-integer [n]. *)
Theorem send_request_status_outside_4xx_5xx_succeeds
    (cfg : Config) (env : Env) (n timeout : Z) (s : State)
    (st : Z) (msg : string) (v : json) :
  1 <= MAX_RETRIES cfg -> ~ (400 <= st < 600) ->
  a_result (http env n timeout 0) = Responded st msg (BodyJson v) ->
  send_request cfg env n timeout s =
    (Some {| response_data := py_of_json v;
             execution_time := a_dur (http env n timeout 0);
             success := true; error := None |},
     {| clock := clock s + a_dur (http env n timeout 0); trace := trace s ++ [Get 0] |}).
Proof.
  intros Hm Hst Hr. unfold send_request.
  destruct (Z.to_nat (MAX_RETRIES cfg)) as [|f] eqn:Hf; [lia|].
  simpl. rewrite Hr. simpl.
  replace ((400 <=? st) && (st <? 600)) with false
    by (symmetry; apply andb_false_iff; destruct (Z.leb_spec 400 st);
        [right; apply Z.ltb_ge; lia | left; reflexivity]).
  do 3 f_equal. lia.
Qed.

Lemma call_outcome_none cfg b n i :
  MAX_RETRIES cfg <= 0 -> call_outcome cfg b n i = None.
Proof.
  intros Hm. unfold call_outcome, send_request.
  replace (Z.to_nat (MAX_RETRIES cfg)) with 0%nat by lia. reflexivity.
Qed.

(** With [MAX_RETRIES <= 0] every call returns [None], and [run_workload]
    on a positive batch raises [AttributeError] when it reads
    [r.success]. *)
Theorem run_workload_without_retries_raises (cfg : Config) (b : Batch) (num n : Z) :
  MAX_RETRIES cfg <= 0 -> 1 <= num ->
  Permutation (completion b) (seq 0 (Z.to_nat num)) ->
  run_workload cfg b num n = Err AttributeError.
Proof.
  intros Hm Hn Hperm. unfold run_workload, thread_pool_ok.
  replace (num <=? 0) with false by (symmetry; apply Z.leb_gt; lia). simpl.
  destruct (completion b) as [|i rest] eqn:Hc.
  - apply Permutation_length in Hperm. rewrite length_seq in Hperm. simpl in Hperm. lia.
  - simpl. rewrite call_outcome_none by exact Hm. reflexivity.
Qed.

Lemma filter_success_map_some rs : filter_success (map Some rs) = Ok (filter success rs).
Proof.
  induction rs as [|r rs IH]; [reflexivity|].
  simpl. rewrite IH. simpl. destruct (success r); reflexivity.
Qed.

Lemma run_workload_of_outcomes cfg b num n rs :
  1 <= num -> map (call_outcome cfg b n) (completion b) = map Some rs ->
  run_workload cfg b num n = Ok (summary_of b num rs).
Proof.
  intros Hn Hrs. unfold run_workload, thread_pool_ok.
  replace (num <=? 0) with false by (symmetry; apply Z.leb_gt; lia). simpl.
  rewrite Hrs, filter_success_map_some. reflexivity.
Qed.

Lemma Permutation_filter_bool {A} (f : A -> bool) l l' :
  Permutation l l' -> Permutation (filter f l) (filter f l').
Proof.
  induction 1 as [|x l l' _ IH|x y l|l l' l'' _ IH1 _ IH2]; simpl.
  - constructor.
  - destruct (f x); [constructor|]; exact IH.
  - destruct (f x), (f y); try constructor; apply Permutation_refl.
  - eapply Permutation_trans; eassumption.
Qed.

Lemma Permutation_list_sum l l' : Permutation l l' -> list_sum l = list_sum l'.
Proof.
  induction 1; unfold list_sum in *; simpl in *; lia.
Qed.

Lemma Permutation_map_Some (l l' : list RequestResult) :
  Permutation (map Some l) (map Some l') -> Permutation l l'.
Proof.
  intros H. apply (Permutation_map unwrap_result) in H.
  rewrite !map_map in H. simpl in H. rewrite !map_id in H. exact H.
Qed.

(** The summary does not depend on the order in which [as_completed]
    yields the futures: only the order of [latencies] does. *)
Theorem run_workload_order_independent
    (cfg : Config) (b1 b2 : Batch) (num n : Z) (r1 : WorkloadResult) :
  call_env b1 = call_env b2 -> wall_ms b1 = wall_ms b2 ->
  Permutation (completion b1) (completion b2) ->
  run_workload cfg b1 num n = Ok r1 ->
  exists r2, run_workload cfg b2 num n = Ok r2 /\
    Permutation (latencies r1) (latencies r2) /\
    success_rate r2 = success_rate r1 /\
    avg_calculation_time r2 = avg_calculation_time r1 /\
    total_time r2 = total_time r1 /\ throughput r2 = throughput r1 /\
    request_count r2 = request_count r1.
Proof.
  intros Henv Hwall Hperm Hrun.
  destruct (run_workload_inv _ _ _ _ _ Hrun) as [Hn [rs1 [Hrs1 ->]]].
  assert (Hco : call_outcome cfg b2 n = call_outcome cfg b1 n)
    by (unfold call_outcome; rewrite Henv; reflexivity).
  assert (Hp2 : Permutation (map Some rs1) (map (call_outcome cfg b2 n) (completion b2)))
    by (rewrite <- Hrs1, Hco; apply Permutation_map; exact Hperm).
  destruct (filter_success_ok (map (call_outcome cfg b2 n) (completion b2)))
    as [rs2 [Hrs2 _]].
  { intros o Ho. apply (Permutation_in _ (Permutation_sym Hp2)) in Ho.
    apply in_map_iff in Ho. destruct Ho as [x [<- _]]. discriminate. }
  rewrite Hrs2 in Hp2. apply Permutation_map_Some in Hp2.
  assert (Hf : Permutation (filter success rs1) (filter success rs2))
    by (apply Permutation_filter_bool; exact Hp2).
  assert (Hl : Permutation (map execution_time (filter success rs1))
                           (map execution_time (filter success rs2)))
    by (apply Permutation_map; exact Hf).
  exists (summary_of b2 num rs2).
  split; [apply run_workload_of_outcomes; [exact Hn | exact Hrs2]|].
  unfold summary_of; cbn [latencies success_rate avg_calculation_time total_time
                          throughput request_count].
  rewrite (Permutation_length Hf), Hwall.
  repeat split; try reflexivity; try exact Hl.
  destruct (map execution_time (filter success rs1)) as [|x l] eqn:E1,
           (map execution_time (filter success rs2)) as [|y l'] eqn:E2.
  - reflexivity.
  - apply Permutation_nil in Hl. discriminate.
  - apply Permutation_sym, Permutation_nil in Hl. discriminate.
  - unfold mean. rewrite (Permutation_list_sum _ _ Hl), (Permutation_length Hl).
    reflexivity.
Qed.

Lemma filter_all_true {A} (f : A -> bool) l :
  (forall x, In x l -> f x = true) -> filter f l = l.
Proof.
  induction l as [|x l IH]; intros H; [reflexivity|].
  simpl. rewrite (H x (or_introl eq_refl)). f_equal. apply IH.
  intros y Hy. apply H. right. exact Hy.
Qed.

(** When every call of a positive batch succeeds, [success_rate] is [1]
    and there is one latency per call. *)
Theorem run_workload_all_succeed (cfg : Config) (b : Batch) (num n : Z) :
  1 <= MAX_RETRIES cfg -> 1 <= num ->
  Permutation (completion b) (seq 0 (Z.to_nat num)) ->
  (forall i o, In i (completion b) -> call_outcome cfg b n i = Some o -> success o = true) ->
  exists r, run_workload cfg b num n = Ok r /\
    (success_rate r == 1)%Q /\ List.length (latencies r) = Z.to_nat num.
Proof.
  intros Hm Hn Hperm Hall.
  destruct (run_workload_ok cfg b num n Hm Hn) as [rs [Hrs Hrun]].
  assert (Hall' : filter success rs = rs).
  { apply filter_all_true. intros o Ho.
    assert (Hin : In (Some o) (map (call_outcome cfg b n) (completion b)))
      by (rewrite Hrs; apply in_map; exact Ho).
    apply in_map_iff in Hin. destruct Hin as [i [Hi Hini]].
    exact (Hall i o Hini Hi). }
  assert (Hlen : List.length rs = Z.to_nat num).
  { rewrite <- (length_map Some rs), <- Hrs, length_map, (Permutation_length Hperm).
    apply length_seq. }
  exists (summary_of b num rs). split; [exact Hrun|].
  unfold summary_of; cbn [success_rate latencies]. rewrite Hall', length_map.
  split; [|exact Hlen].
  unfold Q_of_nat. rewrite Hlen, Z2Nat.id by lia.
  unfold Qdiv. apply Qmult_inv_r.
  intros H0. unfold Qeq in H0. simpl in H0. lia.
Qed.

(* ------------------------------------------------------------------ *)
(** ** [create_and_display_plots] and [main] *)

Lemma speedups_fold r0 l :
  fold_right (fun r acc =>
    let* tl := acc in
    if total_time r =? 0 then Err ZeroDivisionError
    else Ok ((inject_Z (total_time r0) / inject_Z (total_time r))%Q :: tl))
    (Ok []) l
  = if existsb (fun r => total_time r =? 0) l then Err ZeroDivisionError
    else Ok (map (fun r => (inject_Z (total_time r0) / inject_Z (total_time r))%Q) l).
Proof.
  induction l as [|r l IH]; [reflexivity|].
  cbn [fold_right existsb map]. rewrite IH.
  destruct (existsb _ l), (total_time r =? 0); reflexivity.
Qed.

Lemma speedups_spec rs :
  speedups rs =
    if existsb (fun r => total_time r =? 0) rs then Err ZeroDivisionError
    else Ok (map (fun r => (inject_Z (total_time (hd r rs)) / inject_Z (total_time r))%Q) rs).
Proof.
  destruct rs as [|r0 rs]; [reflexivity|].
  unfold speedups. rewrite speedups_fold. reflexivity.
Qed.

Lemma map_fst_combine_eq {A B} (l : list A) (l' : list B) :
  List.length l = List.length l' -> map fst (combine l l') = l.
Proof.
  revert l'. induction l as [|x l IH]; intros [|y l'] H; simpl in *; try discriminate; auto.
  f_equal. apply IH. lia.
Qed.

Lemma inject_Z_nonzero z : z <> 0 -> ~ (inject_Z z == 0)%Q.
Proof. intros Hz H. unfold Qeq in H. simpl in H. lia. Qed.

Lemma sweep_none cfg batches counts :
  forall k acc rs, sweep cfg batches k counts acc = (rs, None) ->
  exists rs', rs = acc ++ rs' /\ map request_count rs' = counts /\
              Forall (fun c => 1 <= c) counts.
Proof.
  induction counts as [|c counts IH]; intros k acc rs Hsw; simpl in Hsw.
  - injection Hsw as <-. exists []. rewrite app_nil_r. auto.
  - destruct (run_workload _ _ _ _) as [w|e] eqn:Hr; [|discriminate].
    apply IH in Hsw. destruct Hsw as [rs' [-> [Hc Hpos]]].
    destruct (run_workload_inv _ _ _ _ _ Hr) as [Hn [rs0 [_ ->]]].
    exists (summary_of (batches k) c rs0 :: rs'). rewrite <- app_assoc.
    split; [reflexivity|]. split; [simpl; rewrite Hc; reflexivity|].
    constructor; assumption.
Qed.

Lemma filter_success_err l e : filter_success l = Err e -> e = AttributeError.
Proof.
  induction l as [|[r|] l IH]; simpl; [discriminate| |congruence].
  destruct (filter_success l); simpl; [discriminate|]. intros H. injection H as <-. apply IH. reflexivity.
Qed.

Lemma run_workload_err cfg b num n e :
  run_workload cfg b num n = Err e -> e = ValueError \/ e = AttributeError.
Proof.
  unfold run_workload, thread_pool_ok.
  destruct (num <=? 0); simpl; [intros H; injection H as <-; left; reflexivity|].
  destruct (filter_success _) eqn:Hf; simpl; [discriminate|].
  intros H. injection H as <-. right. exact (filter_success_err _ _ Hf).
Qed.

Lemma sweep_err cfg batches counts :
  forall k acc rs e, sweep cfg batches k counts acc = (rs, Some e) ->
  e = ValueError \/ e = AttributeError.
Proof.
  induction counts as [|c counts IH]; intros k acc rs e Hsw; simpl in Hsw; [discriminate|].
  destruct (run_workload _ _ _ _) as [w|e'] eqn:Hr.
  - exact (IH _ _ _ _ Hsw).
  - injection Hsw as _ <-. exact (run_workload_err _ _ _ _ _ Hr).
Qed.

(** [create_and_display_plots] raises [ZeroDivisionError] exactly when
    some level has [total_time = 0]. *)
Theorem create_and_display_plots_raises_iff_zero_time (rs : list WorkloadResult) :
  create_and_display_plots rs = Err ZeroDivisionError <->
  exists r, In r rs /\ total_time r = 0.
Proof.
  unfold create_and_display_plots. rewrite speedups_spec.
  destruct (existsb (fun r => total_time r =? 0) rs) eqn:E; simpl.
  - apply existsb_exists in E. destruct E as [r [Hr Ht]]. apply Z.eqb_eq in Ht.
    split; [intros _; exists r; auto | reflexivity].
  - split; [discriminate|]. intros [r [Hr Ht]]. exfalso.
    apply not_true_iff_false in E. apply E. apply existsb_exists.
    exists r. split; [exact Hr | apply Z.eqb_eq; exact Ht].
Qed.

(** When line 107 does not raise, the speedup panel has one point per
    level, in order, at its [request_count], and the first level's speedup
    is exactly [1]. *)
Theorem create_and_display_plots_speedups (rs : list WorkloadResult) (p : Plots) :
  create_and_display_plots rs = Ok p ->
  map fst (speedup_series p) = map request_count rs /\
  (forall c x, hd_error (speedup_series p) = Some (c, x) -> (x == 1)%Q).
Proof.
  unfold create_and_display_plots. rewrite speedups_spec.
  destruct (existsb (fun r => total_time r =? 0) rs) eqn:E; simpl; [discriminate|].
  intros Hp. injection Hp as <-. cbn [speedup_series].
  assert (Hall : forall r, In r rs -> total_time r <> 0).
  { intros r Hr Ht. apply not_true_iff_false in E. apply E.
    apply existsb_exists. exists r. split; [exact Hr | apply Z.eqb_eq; exact Ht]. }
  split.
  - apply map_fst_combine_eq. rewrite !length_map. reflexivity.
  - destruct rs as [|r0 rs]; simpl; [discriminate|].
    intros c x Hx. injection Hx as _ <-. unfold Qdiv. apply Qmult_inv_r.
    apply inject_Z_nonzero. apply Hall. left. reflexivity.
Qed.

(** The latency panel is the text "No successful requests ..." exactly
    when no level has latencies; otherwise it is a boxplot of the levels
    that have latencies, in order, labelled with their [request_count],
    and none of its boxes is empty. *)
Theorem create_and_display_plots_latency_panel (rs : list WorkloadResult) (p : Plots) :
  create_and_display_plots rs = Ok p ->
  (latency_plot p = NoLatencyText <-> forall r, In r rs -> latencies r = []) /\
  (forall labels data, latency_plot p = Boxplot labels data ->
     labels = map request_count (filter has_latencies rs) /\
     data = map latencies (filter has_latencies rs) /\
     data <> [] /\ Forall (fun l => l <> []) data).
Proof.
  unfold create_and_display_plots.
  destruct (speedups rs) as [sp|e]; simpl; [|discriminate].
  intros Hp. injection Hp as <-. cbn [latency_plot].
  destruct (filter has_latencies rs) as [|w ws] eqn:Ef; simpl.
  - split; [|discriminate]. split; [|reflexivity]. intros _ r Hr.
    assert (Hn : ~ In r (filter has_latencies rs)) by (rewrite Ef; auto).
    rewrite filter_In in Hn. unfold has_latencies in Hn.
    destruct (latencies r); [reflexivity|]. exfalso. apply Hn. auto.
  - split.
    + split; [discriminate|]. intros Hall. exfalso.
      assert (Hw : In w (filter has_latencies rs)) by (rewrite Ef; left; reflexivity).
      apply filter_In in Hw. destruct Hw as [Hw Hl]. unfold has_latencies in Hl.
      rewrite (Hall w Hw) in Hl. discriminate.
    + intros labels data Hb. injection Hb as <- <-.
      split; [simpl; rewrite map_map; reflexivity|].
      split; [simpl; rewrite map_map; reflexivity|]. split; [discriminate|].
      apply Forall_forall. intros l Hl. rewrite map_map in Hl.
      change (In l (map latencies (w :: ws))) in Hl. apply in_map_iff in Hl.
      destruct Hl as [r [<- Hr]]. rewrite <- Ef in Hr. apply filter_In in Hr.
      destruct Hr as [_ Hr]. unfold has_latencies in Hr.
      destruct (latencies r); discriminate.
Qed.

(** When [main] returns, the loop over [REQUEST_COUNTS] finished, [main]
    returns the loop's [results] unchanged, and no level has
    [total_time = 0]. *)
Theorem main_returns_sweep_results (cfg : Config) (batches : nat -> Batch)
    (rs : list WorkloadResult) :
  main cfg batches = Ok rs ->
  sweep cfg batches 0 (REQUEST_COUNTS cfg) [] = (rs, None) /\
  (forall r, In r rs -> total_time r <> 0).
Proof.
  unfold main. destruct (sweep cfg batches 0 (REQUEST_COUNTS cfg) []) as [rs0 [e|]];
    [discriminate|].
  rewrite speedups_spec.
  destruct (existsb (fun r => total_time r =? 0) rs0) eqn:E; simpl; [discriminate|].
  intros H. injection H as ->. split; [reflexivity|].
  intros r Hr Ht. apply not_true_iff_false in E. apply E.
  apply existsb_exists. exists r. split; [exact Hr | apply Z.eqb_eq; exact Ht].
Qed.

(** [main] raises [ZeroDivisionError] exactly when every level ran and
    some level has [total_time = 0]: the loop itself never raises it. *)
Theorem main_zero_division_iff (cfg : Config) (batches : nat -> Batch) :
  main cfg batches = Err ZeroDivisionError <->
  exists rs, sweep cfg batches 0 (REQUEST_COUNTS cfg) [] = (rs, None) /\
             exists r, In r rs /\ total_time r = 0.
Proof.
  unfold main. destruct (sweep cfg batches 0 (REQUEST_COUNTS cfg) []) as [rs0 [e|]] eqn:Hsw.
  - split.
    + intros H. injection H as ->. apply sweep_err in Hsw.
      destruct Hsw; discriminate.
    + intros [rs [H _]]. discriminate.
  - rewrite speedups_spec.
    destruct (existsb (fun r => total_time r =? 0) rs0) eqn:E; simpl.
    + split; [|reflexivity]. intros _. exists rs0. split; [reflexivity|].
      apply existsb_exists in E. destruct E as [r [Hr Ht]].
      exists r. split; [exact Hr | apply Z.eqb_eq; exact Ht].
    + split; [discriminate|]. intros [rs [Heq [r [Hr Ht]]]]. injection Heq as <-.
      apply not_true_iff_false in E. exfalso. apply E.
      apply existsb_exists. exists r. split; [exact Hr | apply Z.eqb_eq; exact Ht].
Qed.

(** When [main] returns, its list has one summary per entry of
    [REQUEST_COUNTS], in order, every entry of [REQUEST_COUNTS] is
    positive, and the plots were built. *)
Theorem main_one_result_per_level (cfg : Config) (batches : nat -> Batch)
    (rs : list WorkloadResult) :
  main cfg batches = Ok rs ->
  map request_count rs = REQUEST_COUNTS cfg /\
  Forall (fun c => 1 <= c) (REQUEST_COUNTS cfg) /\
  exists p, create_and_display_plots rs = Ok p.
Proof.
  unfold main. destruct (sweep cfg batches 0 (REQUEST_COUNTS cfg) []) as [rs0 [e|]] eqn:Hsw;
    [discriminate|].
  rewrite speedups_spec.
  destruct (existsb (fun r => total_time r =? 0) rs0) eqn:E; simpl; [discriminate|].
  intros H. injection H as <-.
  destruct (sweep_none _ _ _ _ _ _ Hsw) as [rs' [Hrs [Hc Hpos]]]. simpl in Hrs. subst rs'.
  split; [exact Hc|]. split; [exact Hpos|].
  unfold create_and_display_plots. rewrite speedups_spec, E. eexists. reflexivity.
Qed.

(* ------------------------------------------------------------------ *)
(** ** The service *)

Lemma in_py_range lo hi x : In x (py_range lo hi) <-> lo <= x < hi.
Proof.
  unfold py_range. rewrite in_map_iff. split.
  - intros [k [<- Hk]]. apply in_seq in Hk. lia.
  - intros H. exists (Z.to_nat (x - lo)). split; [lia|]. apply in_seq. lia.
Qed.

Lemma py_range_snoc lo hi : lo <= hi -> py_range lo (hi + 1) = py_range lo hi ++ [hi].
Proof.
  intros H. unfold py_range.
  replace (Z.to_nat (hi + 1 - lo)) with (S (Z.to_nat (hi - lo))) by lia.
  rewrite seq_S, map_app. simpl. do 3 f_equal. lia.
Qed.

(** Trial division by [2 .. r] decides primality when
    [isqrt num <= r < num]. *)
Lemma trial_division_iff num r :
  2 <= num -> Z.sqrt num <= r < num ->
  forallb (fun i => negb (num mod i =? 0)) (py_range 2 (r + 1)) = true <-> Z.prime num.
Proof.
  intros H2 Hr. unfold Z.prime. rewrite forallb_forall. split.
  - intros Hall. split; [lia|]. intros d Hd Hdiv.
    assert (Hsq := Z.sqrt_spec num ltac:(lia)). unfold Z.succ in Hsq.
    set (s := Z.sqrt num) in *.
    assert (Hd' : (d | num)) by exact Hdiv.
    destruct Hdiv as [m Hm].
    assert (Hm1 : 1 < m) by nia.
    assert (Hmd : (m | num)) by (exists d; lia).
    assert (Hsmall : d <= s \/ m <= s) by nia.
    destruct Hsmall as [Hs|Hs].
    + specialize (Hall d (proj2 (in_py_range 2 (r + 1) d) ltac:(lia))).
      apply Z.mod_divide in Hd'; [|lia]. rewrite Hd' in Hall. discriminate.
    + specialize (Hall m (proj2 (in_py_range 2 (r + 1) m) ltac:(lia))).
      apply Z.mod_divide in Hmd; [|lia]. rewrite Hmd in Hall. discriminate.
  - intros [H1 Hp] i Hi. apply in_py_range in Hi.
    destruct (num mod i =? 0) eqn:E; [|reflexivity]. exfalso.
    apply Z.eqb_eq in E. apply (Hp i); [lia|]. apply Z.mod_divide; [lia | exact E].
Qed.

Lemma is_prime_spec float_root num :
  (2 <= num -> exists r, float_root num = Some r /\ Z.sqrt num <= r < num) ->
  (is_prime float_root num = Some true <-> Z.prime num) /\
  (is_prime float_root num = Some false <-> ~ Z.prime num).
Proof.
  intros Hroot. unfold is_prime. destruct (Z.ltb_spec num 2) as [Hlt|Hge].
  - assert (Hn : ~ Z.prime num) by (intros Hp; apply Z.prime_ge_2 in Hp; lia).
    split; split; intros H; try discriminate; try reflexivity; try exact Hn; contradiction.
  - destruct (Hroot Hge) as [r [Hr Hb]]. rewrite Hr.
    assert (Hi := trial_division_iff num r Hge Hb).
    destruct (forallb _ _) eqn:E.
    + assert (Hp : Z.prime num) by (apply Hi; reflexivity).
      split; split; intros H; try discriminate; try reflexivity; try exact Hp; contradiction.
    + assert (Hn : ~ Z.prime num) by (intros Hp; apply Hi in Hp; discriminate).
      split; split; intros H; try discriminate; try reflexivity; try exact Hn; contradiction.
Qed.

Lemma sum_primes_app float_root l l' :
  sum_primes float_root (l ++ l') =
    match sum_primes float_root l, sum_primes float_root l' with
    | Some a, Some b => Some (a + b)
    | _, _ => None
    end.
Proof.
  induction l as [|x l IH]; simpl.
  - destruct (sum_primes float_root l'); reflexivity.
  - rewrite IH. destruct (is_prime float_root x) as [b|];
      [|reflexivity].
    destruct (sum_primes float_root l), (sum_primes float_root l'); try reflexivity.
    f_equal. lia.
Qed.

Lemma sum_primes_none float_root l :
  sum_primes float_root l = None <-> exists k, In k l /\ is_prime float_root k = None.
Proof.
  induction l as [|x l IH]; simpl.
  - split; [discriminate | intros [k [[] _]]].
  - destruct (is_prime float_root x) as [b|] eqn:Hx.
    + destruct (sum_primes float_root l) eqn:Hs.
      * split; [discriminate|]. intros [k [[<-|Hk] Hn]]; [congruence|].
        assert (Hnone : Some z = None) by (apply IH; exists k; auto).
        discriminate.
      * split; [|reflexivity]. intros _. destruct (proj1 IH eq_refl) as [k [Hk Hn]].
        exists k. auto.
    + split; [|reflexivity]. intros _. exists x. auto.
Qed.

(** [is_prime] is a correct primality test at every [num] where
    [int(num ** 0.5)] is at least the exact integer square root and below
    [num] (and does not raise): it returns [True] on the primes and
    [False] on every other number. *)
Theorem is_prime_correct (float_root : Z -> option Z) (num : Z) :
  (2 <= num -> exists r, float_root num = Some r /\ Z.sqrt num <= r < num) ->
  (is_prime float_root num = Some true <-> Z.prime num) /\
  (is_prime float_root num = Some false <-> ~ Z.prime num).
Proof. apply is_prime_spec. Qed.

(** When [int((p * p) ** 0.5)] comes out below the prime [p], [is_prime]
    reports [p * p] as prime, although it is not. *)
Theorem is_prime_prime_square_misreported (float_root : Z -> option Z) (p r : Z) :
  Z.prime p -> float_root (p * p) = Some r -> r < p ->
  is_prime float_root (p * p) = Some true /\ ~ Z.prime (p * p).
Proof.
  intros Hp Hr Hlt. split; [|apply Z.not_prime_square].
  assert (H2 := Z.prime_ge_2 p Hp).
  unfold is_prime. replace (p * p <? 2) with false by (symmetry; apply Z.ltb_ge; nia).
  rewrite Hr. f_equal. apply forallb_forall. intros i Hi. apply in_py_range in Hi.
  destruct ((p * p) mod i =? 0) eqn:E; [|reflexivity]. exfalso.
  apply Z.eqb_eq in E. apply Z.mod_divide in E; [|lia].
  assert (Hcop : Z.gcd i p = 1).
  { rewrite Z.gcd_comm. apply Z.coprime_prime_l; [exact Hp|].
    intros Hpi. apply Z.divide_pos_le in Hpi; lia. }
  apply Z.gauss in E; [|exact Hcop].
  apply (proj2 Hp i); [lia | exact E].
Qed.

(** For [n < 2] (including every negative [n]) the service's sum of primes
    is [0]. *)
Theorem prime_sum_below_two (float_root : Z -> option Z) (n : Z) :
  n < 2 -> prime_sum float_root n = Some 0.
Proof.
  intros Hn. unfold prime_sum, py_range.
  replace (Z.to_nat (n + 1 - 2)) with 0%nat by lia. reflexivity.
Qed.

(** For [n >= 2], when the sum up to [n - 1] is [s] and [int(n ** 0.5)]
    is at least the exact integer square root of [n] and below [n], the
    sum up to [n] is [s + n] if [n] is prime and [s] otherwise. *)
Theorem prime_sum_step (float_root : Z -> option Z) (n s : Z) :
  2 <= n -> prime_sum float_root (n - 1) = Some s ->
  (exists r, float_root n = Some r /\ Z.sqrt n <= r < n) ->
  (Z.prime n -> prime_sum float_root n = Some (s + n)) /\
  (~ Z.prime n -> prime_sum float_root n = Some s).
Proof.
  intros Hn Hs Hroot.
  destruct (is_prime_spec float_root n (fun _ => Hroot)) as [Ht Hf].
  unfold prime_sum in *. replace (n - 1 + 1) with n in Hs by lia.
  rewrite (py_range_snoc 2 n Hn), sum_primes_app, Hs. simpl.
  split; intros Hp.
  - rewrite (proj2 Ht Hp). f_equal. lia.
  - rewrite (proj2 Hf Hp). f_equal. lia.
Qed.

(** The service's sum of primes raises exactly when [int(k ** 0.5)]
    raises for some [k] in [2 .. n]. *)
Theorem prime_sum_raises_iff (float_root : Z -> option Z) (n : Z) :
  prime_sum float_root n = None <-> exists k, 2 <= k <= n /\ float_root k = None.
Proof.
  unfold prime_sum. rewrite sum_primes_none. split.
  - intros [k [Hk Hn]]. apply in_py_range in Hk. exists k. split; [lia|].
    unfold is_prime in Hn. replace (k <? 2) with false in Hn by (symmetry; apply Z.ltb_ge; lia).
    destruct (float_root k); [discriminate | reflexivity].
  - intros [k [Hk Hn]]. exists k. split; [apply in_py_range; lia|].
    unfold is_prime. replace (k <? 2) with false by (symmetry; apply Z.ltb_ge; lia).
    rewrite Hn. reflexivity.
Qed.

(* ------------------------------------------------------------------ *)
(** ** The properties above at concrete inputs *)

Lemma send_request_attempt_trace_witness :
  exists r s', send_request CONFIG flaky_env 10 30 s0 = (Some r, s') /\
  exists j, Z.of_nat j < MAX_RETRIES CONFIG /\
    trace s' = trace s0 ++ attempt_trace 0 j /\
    clock s' = (clock s0 + execution_time r)%nat /\
    (forall i, (i < j)%nat -> attempt_fails flaky_env 10 30 i) /\
    (success r = true <-> ~ attempt_fails flaky_env 10 30 j) /\
    (success r = false -> Z.of_nat j = MAX_RETRIES CONFIG - 1).
Proof.
  do 2 eexists. split; [reflexivity|].
  exact (send_request_attempt_trace CONFIG flaky_env 10 30 s0 _ _ eq_refl).
Defined.

Lemma send_request_status_outside_4xx_5xx_succeeds_witness :
  1 <= MAX_RETRIES CONFIG /\ ~ (400 <= 700 < 600) /\
  send_request CONFIG invalid_input_env 10 30 s0 =
    (Some {| response_data := py_of_json (JObj [("error"%string, JStr "Invalid input")]);
             execution_time := a_dur (http invalid_input_env 10 30 0);
             success := true; error := None |},
     {| clock := clock s0 + a_dur (http invalid_input_env 10 30 0);
        trace := trace s0 ++ [Get 0] |}).
Proof.
  split; [simpl; lia|]. split; [lia|].
  apply (send_request_status_outside_4xx_5xx_succeeds CONFIG invalid_input_env 10 30 s0
           700 "" (JObj [("error"%string, JStr "Invalid input")])).
  - simpl. lia.
  - lia.
  - reflexivity.
Defined.

Lemma run_workload_without_retries_raises_witness :
  MAX_RETRIES (with_retries CONFIG 0) <= 0 /\
  run_workload (with_retries CONFIG 0) (batch_of refused_env 2 10) 2 10 = Err AttributeError.
Proof.
  split; [simpl; lia|].
  apply run_workload_without_retries_raises.
  - simpl. lia.
  - lia.
  - apply Permutation_refl.
Defined.

Lemma run_workload_order_independent_witness :
  exists r1, run_workload CONFIG mixed_batch 3 10 = Ok r1 /\
  exists r2, run_workload CONFIG mixed_batch_in_order 3 10 = Ok r2 /\
    Permutation (latencies r1) (latencies r2) /\
    success_rate r2 = success_rate r1 /\
    avg_calculation_time r2 = avg_calculation_time r1 /\
    total_time r2 = total_time r1 /\ throughput r2 = throughput r1 /\
    request_count r2 = request_count r1.
Proof.
  eexists. split; [reflexivity|].
  exact (run_workload_order_independent CONFIG mixed_batch mixed_batch_in_order 3 10 _
           eq_refl eq_refl (Permutation_cons_append [0; 1]%nat 2%nat) eq_refl).
Defined.

Lemma run_workload_all_succeed_witness :
  exists r, run_workload CONFIG (batch_of (answering_env (JNum 1) 7) 3 50) 3 10 = Ok r /\
    (success_rate r == 1)%Q /\ List.length (latencies r) = 3%nat.
Proof.
  apply (run_workload_all_succeed CONFIG (batch_of (answering_env (JNum 1) 7) 3 50) 3 10).
  - simpl. lia.
  - lia.
  - apply Permutation_refl.
  - intros i o _ H. vm_compute in H. injection H as <-. reflexivity.
Defined.

Lemma create_and_display_plots_speedups_witness :
  exists p, create_and_display_plots two_levels = Ok p /\
    map fst (speedup_series p) = map request_count two_levels /\
    (forall c x, hd_error (speedup_series p) = Some (c, x) -> (x == 1)%Q).
Proof.
  eexists. split; [reflexivity|].
  exact (create_and_display_plots_speedups two_levels _ eq_refl).
Defined.

Lemma main_returns_sweep_results_witness :
  exists rs, main (with_counts CONFIG [1; 3]) level_batches = Ok rs /\
  sweep (with_counts CONFIG [1; 3]) level_batches 0
        (REQUEST_COUNTS (with_counts CONFIG [1; 3])) [] = (rs, None) /\
  (forall r, In r rs -> total_time r <> 0).
Proof.
  eexists. split; [reflexivity|].
  exact (main_returns_sweep_results (with_counts CONFIG [1; 3]) level_batches _ eq_refl).
Defined.

Lemma create_and_display_plots_latency_panel_witness :
  exists p, create_and_display_plots two_levels = Ok p /\
  (latency_plot p = NoLatencyText <-> forall r, In r two_levels -> latencies r = []) /\
  (forall labels data, latency_plot p = Boxplot labels data ->
     labels = map request_count (filter has_latencies two_levels) /\
     data = map latencies (filter has_latencies two_levels) /\
     data <> [] /\ Forall (fun l => l <> []) data).
Proof.
  eexists. split; [reflexivity|].
  exact (create_and_display_plots_latency_panel two_levels _ eq_refl).
Defined.

Lemma main_one_result_per_level_witness :
  exists rs, main (with_counts CONFIG [1; 3]) level_batches = Ok rs /\
  map request_count rs = REQUEST_COUNTS (with_counts CONFIG [1; 3]) /\
  Forall (fun c => 1 <= c) (REQUEST_COUNTS (with_counts CONFIG [1; 3])) /\
  exists p, create_and_display_plots rs = Ok p.
Proof.
  eexists. split; [reflexivity|].
  exact (main_one_result_per_level (with_counts CONFIG [1; 3]) level_batches _ eq_refl).
Defined.

Lemma is_prime_correct_witness :
  (2 <= 97 -> exists r, exact_root 97 = Some r /\ Z.sqrt 97 <= r < 97) /\
  (is_prime exact_root 97 = Some true <-> Z.prime 97) /\
  (is_prime exact_root 97 = Some false <-> ~ Z.prime 97).
Proof.
  assert (H : 2 <= 97 -> exists r, exact_root 97 = Some r /\ Z.sqrt 97 <= r < 97).
  { intros _. exists 9. split; [reflexivity|]. change (Z.sqrt 97) with 9. lia. }
  split; [exact H|]. exact (is_prime_correct exact_root 97 H).
Defined.

Lemma is_prime_prime_square_misreported_witness :
  Z.prime 3 /\ low_root (3 * 3) = Some 2 /\ 2 < 3 /\
  is_prime low_root (3 * 3) = Some true /\ ~ Z.prime (3 * 3).
Proof.
  split; [exact Z.prime_3|]. split; [reflexivity|]. split; [lia|].
  exact (is_prime_prime_square_misreported low_root 3 2 Z.prime_3 eq_refl ltac:(lia)).
Defined.

Lemma prime_sum_below_two_witness : -5 < 2 /\ prime_sum exact_root (-5) = Some 0.
Proof. split; [lia|]. apply prime_sum_below_two. lia. Defined.

Lemma prime_sum_step_witness :
  2 <= 11 /\ prime_sum exact_root (11 - 1) = Some 17 /\
  (exists r, exact_root 11 = Some r /\ Z.sqrt 11 <= r < 11) /\
  (Z.prime 11 -> prime_sum exact_root 11 = Some (17 + 11)) /\
  (~ Z.prime 11 -> prime_sum exact_root 11 = Some 17).
Proof.
  assert (Hr : exists r, exact_root 11 = Some r /\ Z.sqrt 11 <= r < 11).
  { exists 3. split; [reflexivity|]. change (Z.sqrt 11) with 3. lia. }
  split; [lia|]. split; [reflexivity|]. split; [exact Hr|].
  exact (prime_sum_step exact_root 11 17 ltac:(lia) eq_refl Hr).
Defined.
